(** * ComposableController: aggregation of child controller state

    A shallow embedding of
    [packages/composable-controller/src/ComposableController.ts]:
    the three type guards, the two [reduce] folds of the constructor, the
    subscription bridging of [#updateChildController] and the listener it
    registers, followed by the properties of the composite state and
    metadata that the specification lists. *)

From stdpp Require Import base option list strings gmap fin_maps.

Local Open Scope string_scope.
Local Open Scope list_scope.

(** ** JavaScript values *)

(** The values a component property can hold.  Objects are kept as their
    list of own properties; functions are opaque. *)
#[warnings="-register-all"]
Inductive JsValue : Type :=
| JsUndefined
| JsNull
| JsBoolean (b : bool)
| JsNumber (n : Z)
| JsString (s : string)
| JsObject (props : list (string * JsValue))
| JsFunction (id : nat).

(** The [typeof] operator. *)
Definition typeof (v : JsValue) : string :=
  match v with
  | JsUndefined => "undefined"
  | JsNull => "object"
  | JsBoolean _ => "boolean"
  | JsNumber _ => "number"
  | JsString _ => "string"
  | JsObject _ => "object"
  | JsFunction _ => "function"
  end.

(** The classes [instanceof] is asked about. *)
Inductive JsClass : Type :=
| BaseController
| BaseControllerV1
| OtherClass.

Definition JsClass_eqb (a b : JsClass) : bool :=
  match a, b with
  | BaseController, BaseController => true
  | BaseControllerV1, BaseControllerV1 => true
  | OtherClass, OtherClass => true
  | _, _ => false
  end.

(** ** Components *)

(** The handle of a restricted controller messenger. *)
Inductive RestrictedControllerMessenger : Type :=
| MessengerHandle (id : nat).

(** [WalletComponentInstance] is the union of [BaseControllerV1Instance],
    [BaseControllerInstance] and [MessengerConsumerInstance].  Every member
    of the union has [name : string]; each other property is present
    ([Some v]) or absent ([None]).  [class] is the class the object was
    built from, which is all [instanceof] looks at. *)
Record WalletComponentInstance : Type := {
  name : string;
  class : JsClass;
  config : option JsValue;
  defaultConfig : option JsValue;
  state : option JsValue;
  defaultState : option JsValue;
  subscribe : option JsValue;
  disabled : option JsValue;
  metadata : option JsValue;
  messagingSystem : option JsValue;
}.

(** Property lookup by key, [None] when the component has no such property. *)
Definition property (key : string) (component : WalletComponentInstance)
  : option JsValue :=
  if String.eqb key "name" then Some (JsString (name component))
  else if String.eqb key "config" then config component
  else if String.eqb key "defaultConfig" then defaultConfig component
  else if String.eqb key "state" then state component
  else if String.eqb key "defaultState" then defaultState component
  else if String.eqb key "subscribe" then subscribe component
  else if String.eqb key "disabled" then disabled component
  else if String.eqb key "metadata" then metadata component
  else if String.eqb key "messagingSystem" then messagingSystem component
  else None.

(** [key in component]. *)
Definition hasProperty (key : string) (component : WalletComponentInstance)
  : bool :=
  match property key component with
  | Some _ => true
  | None => false
  end.

(** [component.key]; reading an absent property gives [undefined]. *)
Definition get (component : WalletComponentInstance) (key : string)
  : JsValue :=
  match property key component with
  | Some v => v
  | None => JsUndefined
  end.

(** [component instanceof K]. *)
Definition instanceof (component : WalletComponentInstance) (K : JsClass)
  : bool :=
  JsClass_eqb (class component) K.

(** ** Type guards *)

Definition isMessengerConsumer (component : WalletComponentInstance) : bool :=
  hasProperty "name" component && hasProperty "messagingSystem" component.

Definition isBaseControllerV1 (controller : WalletComponentInstance) : bool :=
  hasProperty "name" controller &&
  String.eqb (typeof (get controller "name")) "string" &&
  hasProperty "config" controller &&
  String.eqb (typeof (get controller "config")) "object" &&
  hasProperty "defaultConfig" controller &&
  String.eqb (typeof (get controller "defaultConfig")) "object" &&
  hasProperty "state" controller &&
  String.eqb (typeof (get controller "state")) "object" &&
  hasProperty "defaultState" controller &&
  String.eqb (typeof (get controller "defaultState")) "object" &&
  hasProperty "disabled" controller &&
  String.eqb (typeof (get controller "disabled")) "boolean" &&
  hasProperty "subscribe" controller &&
  String.eqb (typeof (get controller "subscribe")) "function" &&
  instanceof controller BaseControllerV1.

Definition isBaseController (controller : WalletComponentInstance) : bool :=
  hasProperty "name" controller &&
  String.eqb (typeof (get controller "name")) "string" &&
  hasProperty "state" controller &&
  String.eqb (typeof (get controller "state")) "object" &&
  hasProperty "metadata" controller &&
  String.eqb (typeof (get controller "metadata")) "object" &&
  instanceof controller BaseController.

(** ** Errors and effects *)

(** Both failures are a plain [Error] carrying a message. *)
Record Error : Type := { message : string }.

(** [throw new Error(`Messaging system is required`)]. *)
Definition ConfigurationError : Error :=
  {| message := "Messaging system is required" |}.

(** The error of the last branch of [#updateChildController]. *)
Definition ValidationError : Error :=
  {| message := "Invalid component: component must be a MessengerConsumer or a controller inheriting from BaseControllerV1." |}.

(** The listener both branches of [#updateChildController] register is the
    same closure, [(childState) => this.update((state) =>
    Object.assign(state, { [name]: childState }))]; all it captures besides
    [this] is [name]. *)
Inductive Listener : Type :=
| SliceListener (name : string).

(** What the composer does to the outside world: calls on the messenger
    and on a child's own [subscribe]. *)
Inductive Effect : Type :=
| Messenger_subscribe (topic : string) (handler : Listener)
| Component_subscribe (component : WalletComponentInstance)
    (listener : Listener)
| Messenger_publish (topic : string) (payload : gmap string JsValue).

(** A computation logs its effects in order and ends in a value or in a
    thrown error; what was logged before a throw stays logged. *)
Definition M (A : Type) : Type := (list Effect * (Error + A))%type.

Definition ret {A} (a : A) : M A := ([], inr a).

Definition throw {A} (e : Error) : M A := ([], inl e).

Definition perform (e : Effect) : M unit := ([e], inr tt).

Definition bind {A B} (k : A → M B) (m : M A) : M B :=
  match m with
  | (log, inl e) => (log, inl e)
  | (log, inr a) => let '(log', r) := k a in (log ++ log', r)
  end.

#[global] Instance M_ret : MRet M := @ret.
#[global] Instance M_bind : MBind M := @bind.

(** [Array.prototype.forEach] with a callback that may throw. *)
Fixpoint forEach {A} (callback : A → M unit) (array : list A) : M unit :=
  match array with
  | [] => ret tt
  | x :: rest => callback x ;; forEach callback rest
  end.

(** [Array.prototype.reduce] with an initial value. *)
Definition reduce {A B} (callback : B → A → B) (initial : B) (array : list A)
  : B :=
  fold_left callback array initial.

(** The effects logged and the outcome. *)
Definition effects {A} (m : M A) : list Effect := fst m.
Definition outcome {A} (m : M A) : Error + A := snd m.

(** ** The composable controller *)

Definition controllerName : string := "ComposableController".

(** What the instance holds once [super] has run. *)
Record ComposableController : Type := {
  this_name : string;
  this_metadata : gmap string JsValue;
  this_state : gmap string JsValue;
  this_messagingSystem : RestrictedControllerMessenger;
}.

(** Modelled from the spec: the constructor of the base class, which
    belongs to the base-controller package.  It stores the name, the
    metadata, the state and the messenger it is given; making the instance
    known to the messenger is not a subscription and is left out. *)
Definition super (name : string) (metadata state : gmap string JsValue)
    (messenger : RestrictedControllerMessenger) : ComposableController :=
  {| this_name := name;
     this_metadata := metadata;
     this_state := state;
     this_messagingSystem := messenger |}.

(** Modelled from the spec: [update] of the base class, which belongs to
    the base-controller package.  It runs the callback on a draft of the
    state; when the callback returns it stores the result and publishes
    one change notification carrying the new state, and when the callback
    throws the error goes to the caller with nothing stored and nothing
    published. *)
Definition update (this : ComposableController)
    (callback : gmap string JsValue → Error + gmap string JsValue)
  : M ComposableController :=
  match callback (this_state this) with
  | inl e => throw e
  | inr next =>
      perform (Messenger_publish (this_name this +:+ ":stateChange") next) ;;
      ret {| this_name := this_name this;
             this_metadata := this_metadata this;
             this_state := next;
             this_messagingSystem := this_messagingSystem this |}
  end.

(** What a draft throws when its prototype is written. *)
Definition DraftPrototypeError : Error :=
  {| message := "[Immer] Object.setPrototypeOf() cannot be used on an Immer draft" |}.

(** [Object.assign(state, { [name]: childState })] on the draft that
    [update] hands over.  [Object.assign] writes with an ordinary property
    assignment.  Under every key but [__proto__] that sets the entry.
    [__proto__] is the accessor every object inherits: its setter changes
    the prototype of the object when the value is an object, a function or
    [null], which a draft refuses by throwing, and does nothing at all
    with any other value. *)
Definition Object_assign (state : gmap string JsValue) (name : string)
    (childState : JsValue) : Error + gmap string JsValue :=
  if String.eqb name "__proto__"
  then
    if String.eqb (typeof childState) "object"
       || String.eqb (typeof childState) "function"
    then inl DraftPrototypeError
    else inr state
  else inr (<[name := childState]> state).

(** Running a registered listener on a new child state. *)
Definition call (listener : Listener) (childState : JsValue)
    (this : ComposableController) : M ComposableController :=
  match listener with
  | SliceListener name =>
      update this (λ state, Object_assign state name childState)
  end.

(** [{ persist: true, anonymous: true }]. *)
Definition defaultMetadata : JsValue :=
  JsObject [("persist", JsBoolean true); ("anonymous", JsBoolean true)].

(** The callback of the metadata [reduce]:
    [{ ...metadata, [controller.name]: isBaseController(controller)
       ? controller.metadata : { persist: true, anonymous: true } }]. *)
Definition metadataReducer (metadata : gmap string JsValue)
    (controller : WalletComponentInstance) : gmap string JsValue :=
  <[name controller :=
      if isBaseController controller then get controller "metadata"
      else defaultMetadata]> metadata.

(** The callback of the state [reduce]:
    ['state' in controller
       ? { ...state, [controller.name]: controller.state } : state]. *)
Definition stateReducer (state : gmap string JsValue)
    (controller : WalletComponentInstance) : gmap string JsValue :=
  if hasProperty "state" controller
  then <[name controller := get controller "state"]> state
  else state.

(** [#updateChildController]. *)
Definition updateChildController (component : WalletComponentInstance)
  : M unit :=
  let name := name component in
  if isBaseController component
     || (isBaseControllerV1 component && isMessengerConsumer component)
  then perform (Messenger_subscribe (name +:+ ":stateChange")
                  (SliceListener name))
  else if isBaseControllerV1 component
  then perform (Component_subscribe component (SliceListener name))
  else if negb (isMessengerConsumer component)
  then throw ValidationError
  else ret tt.

(** The constructor; [None] is a [messenger] that is [undefined]. *)
Definition constructor (controllers : list WalletComponentInstance)
    (messenger : option RestrictedControllerMessenger)
  : M ComposableController :=
  match messenger with
  | None => throw ConfigurationError
  | Some messenger =>
      let this :=
        super controllerName
          (reduce metadataReducer ∅ controllers)
          (reduce stateReducer ∅ controllers)
          messenger in
      forEach updateChildController controllers ;;
      ret this
  end.

(** ** Vocabulary of the specification *)

(** A component [#updateChildController] does not throw on. *)
Definition accepted (component : WalletComponentInstance) : bool :=
  isBaseController component
  || isBaseControllerV1 component
  || isMessengerConsumer component.

(** The listeners an effect log registers, on the messenger or on a child. *)
Definition registered (log : list Effect) : list Listener :=
  flat_map (λ e, match e with
                 | Messenger_subscribe _ handler => [handler]
                 | Component_subscribe _ listener => [listener]
                 | Messenger_publish _ _ => []
                 end) log.

(** The same component with another [disabled] property. *)
Definition setDisabled (v : option JsValue) (c : WalletComponentInstance)
  : WalletComponentInstance :=
  {| name := name c; class := class c;
     config := config c; defaultConfig := defaultConfig c;
     state := state c; defaultState := defaultState c;
     subscribe := subscribe c; disabled := v;
     metadata := metadata c; messagingSystem := messagingSystem c |}.

(** An effect with the [disabled] property of the child it was performed
    on blanked out. *)
Definition blankDisabled (e : Effect) : Effect :=
  match e with
  | Component_subscribe c listener =>
      Component_subscribe (setDisabled None c) listener
  | _ => e
  end.

(** A child [#updateChildController] registers a listener for: one of the
    two kinds of controller. *)
Definition subscribed (component : WalletComponentInstance) : bool :=
  isBaseController component || isBaseControllerV1 component.


(** ** Sample components *)

Module Samples.

(** A bare object carrying only a name. *)
Definition bare (n : string) : WalletComponentInstance :=
  {| name := n; class := OtherClass;
     config := None; defaultConfig := None; state := None;
     defaultState := None; subscribe := None; disabled := None;
     metadata := None; messagingSystem := None |}.

(** A controller built from [BaseController]. *)
Definition modern (n : string) (st md : JsValue) : WalletComponentInstance :=
  {| name := n; class := BaseController;
     config := None; defaultConfig := None; state := Some st;
     defaultState := None; subscribe := None; disabled := None;
     metadata := Some md; messagingSystem := Some (JsObject []) |}.

(** A controller built from [BaseControllerV1], without a messenger. *)
Definition legacy (n : string) (st : JsValue) (off : bool)
  : WalletComponentInstance :=
  {| name := n; class := BaseControllerV1;
     config := Some (JsObject []); defaultConfig := Some (JsObject []);
     state := Some st; defaultState := Some (JsObject []);
     subscribe := Some (JsFunction 0); disabled := Some (JsBoolean off);
     metadata := None; messagingSystem := None |}.

(** A component that has a name and a messaging system and nothing else. *)
Definition consumer (n : string) : WalletComponentInstance :=
  {| name := n; class := OtherClass;
     config := None; defaultConfig := None; state := None;
     defaultState := None; subscribe := None; disabled := None;
     metadata := None; messagingSystem := Some (JsObject []) |}.

(** A messenger consumer of some other class that also keeps a [state]. *)
Definition statefulConsumer (n : string) (st : JsValue)
  : WalletComponentInstance :=
  {| name := n; class := OtherClass;
     config := None; defaultConfig := None; state := Some st;
     defaultState := None; subscribe := None; disabled := None;
     metadata := None; messagingSystem := Some (JsObject []) |}.

Definition x1 : JsValue := JsObject [("x", JsNumber 1)].
Definition y2 : JsValue := JsObject [("y", JsNumber 2)].
Definition y3 : JsValue := JsObject [("y", JsNumber 3)].
Definition fieldMetadata : JsValue :=
  JsObject [("x", JsObject [("persist", JsBoolean false);
                            ("anonymous", JsBoolean false)])].

Definition messenger : RestrictedControllerMessenger := MessengerHandle 0.

End Samples.

(** The scenario of the specification: a [BaseController] child [A] and a
    [BaseControllerV1] child [B]. *)
Example scenario_construction :
  constructor [Samples.modern "A" Samples.x1 (JsObject []);
               Samples.legacy "B" Samples.y2 false]
              (Some Samples.messenger)
  = ([Messenger_subscribe "A:stateChange" (SliceListener "A");
      Component_subscribe (Samples.legacy "B" Samples.y2 false)
        (SliceListener "B")],
     inr (super controllerName
            (<["B" := defaultMetadata]> (<["A" := JsObject []]> ∅))
            (<["B" := Samples.y2]> (<["A" := Samples.x1]> ∅))
            Samples.messenger)).
Proof. reflexivity. Qed.

Example scenario_notification :
  call (SliceListener "B") Samples.y3
       (super controllerName ∅
          (<["B" := Samples.y2]> (<["A" := Samples.x1]> ∅))
          Samples.messenger)
  = ([Messenger_publish "ComposableController:stateChange"
        (<["B" := Samples.y3]> (<["B" := Samples.y2]> (<["A" := Samples.x1]> ∅)))],
     inr (super controllerName ∅
            (<["B" := Samples.y3]> (<["B" := Samples.y2]> (<["A" := Samples.x1]> ∅)))
            Samples.messenger)).
Proof. reflexivity. Qed.

(** ** Reading properties *)

Section Properties.
Context (c : WalletComponentInstance).

Lemma hasProperty_name : hasProperty "name" c = true.
Proof. reflexivity. Qed.


Lemma get_state s : state c = Some s → get c "state" = s.
Proof.
  intros H. unfold get; change (property "state" c) with (state c).
  by rewrite H.
Qed.

Lemma get_metadata md : metadata c = Some md → get c "metadata" = md.
Proof.
  intros H. unfold get; change (property "metadata" c) with (metadata c).
  by rewrite H.
Qed.

Lemma isMessengerConsumer_spec :
  isMessengerConsumer c = true ↔ is_Some (messagingSystem c).
Proof.
  unfold isMessengerConsumer, hasProperty.
  change (property "name" c) with (Some (JsString (name c))).
  change (property "messagingSystem" c) with (messagingSystem c).
  destruct (messagingSystem c); simpl; split; intros H;
    eauto; try done; by destruct H.
Qed.

Lemma isBaseController_class :
  isBaseController c = true → class c = BaseController.
Proof.
  unfold isBaseController, instanceof. intros H.
  apply andb_prop in H as [_ H]. by destruct (class c).
Qed.

Lemma isBaseControllerV1_class :
  isBaseControllerV1 c = true → class c = BaseControllerV1.
Proof.
  unfold isBaseControllerV1, instanceof. intros H.
  apply andb_prop in H as [_ H]. by destruct (class c).
Qed.

Lemma isBaseController_metadata :
  isBaseController c = true → ∃ md, metadata c = Some md.
Proof.
  unfold isBaseController, hasProperty. intros H.
  repeat (apply andb_prop in H as [H ?]).
  change (property "metadata" c) with (metadata c) in *.
  destruct (metadata c); [by eexists | done].
Qed.



Lemma isBaseControllerV1_disabled :
  isBaseControllerV1 c = true → ∃ b, disabled c = Some (JsBoolean b).
Proof.
  unfold isBaseControllerV1, hasProperty, get. intros H.
  repeat (apply andb_prop in H as [H ?]).
  change (property "disabled" c) with (disabled c) in *.
  destruct (disabled c) as [[]|]; try done. by eexists.
Qed.

End Properties.

(** ** Sequencing and [forEach] *)

Lemma bind_throw {A B} (k : A → M B) log e : (log, inl e) ≫= k = (log, inl e).
Proof. reflexivity. Qed.

Lemma bind_value {A B} (k : A → M B) log a :
  (log, inr a) ≫= k = (log ++ effects (k a), outcome (k a)).
Proof.
  unfold mbind, M_bind, bind, effects, outcome. by destruct (k a).
Qed.

Lemma forEach_cons {A} (f : A → M unit) x rest :
  forEach f (x :: rest) = (f x ;; forEach f rest).
Proof. reflexivity. Qed.

(** A loop over [pre ++ post] whose [pre] part runs through is the log of
    [pre] followed by the loop over [post]. *)
Lemma forEach_app {A} (f : A → M unit) pre post :
  Forall (λ x, outcome (f x) = inr tt) pre →
  forEach f (pre ++ post)
  = (flat_map (λ x, effects (f x)) pre ++ effects (forEach f post),
     outcome (forEach f post)).
Proof.
  induction 1 as [|x pre Hx _ IH]; simpl.
  - by destruct (forEach f post).
  - destruct (f x) as [log r] eqn:Hf. simpl in Hx; subst r.
    rewrite bind_value, IH. simpl. by rewrite <- app_assoc.
Qed.

(** ** Classification *)

Lemma updateChildController_accepted c :
  accepted c = true → outcome (updateChildController c) = inr tt.
Proof.
  unfold accepted, updateChildController. intros H.
  destruct (isBaseController c), (isBaseControllerV1 c),
    (isMessengerConsumer c); done.
Qed.

Lemma updateChildController_rejected c :
  accepted c = false → updateChildController c = ([], inl ValidationError).
Proof.
  unfold accepted, updateChildController. intros H.
  destruct (isBaseController c), (isBaseControllerV1 c),
    (isMessengerConsumer c); done.
Qed.

Lemma forEach_accepted controllers :
  Forall (λ c, accepted c = true) controllers →
  forEach updateChildController controllers
  = (flat_map (λ c, effects (updateChildController c)) controllers, inr tt).
Proof.
  intros H. rewrite <- (app_nil_r controllers) at 1.
  rewrite forEach_app.
  - simpl. by rewrite app_nil_r.
  - eapply Forall_impl; [exact H|]. apply updateChildController_accepted.
Qed.

Lemma forEach_rejected pre bad post :
  Forall (λ c, accepted c = true) pre →
  accepted bad = false →
  forEach updateChildController (pre ++ bad :: post)
  = (flat_map (λ c, effects (updateChildController c)) pre,
     inl ValidationError).
Proof.
  intros Hpre Hbad. rewrite forEach_app.
  - rewrite forEach_cons, (updateChildController_rejected _ Hbad).
    rewrite bind_throw. simpl. by rewrite app_nil_r.
  - eapply Forall_impl; [exact Hpre|]. apply updateChildController_accepted.
Qed.

Lemma constructor_accepted controllers messenger :
  Forall (λ c, accepted c = true) controllers →
  constructor controllers (Some messenger)
  = (flat_map (λ c, effects (updateChildController c)) controllers,
     inr (super controllerName
            (reduce metadataReducer ∅ controllers)
            (reduce stateReducer ∅ controllers)
            messenger)).
Proof.
  intros H. unfold constructor. rewrite (forEach_accepted _ H).
  rewrite bind_value. simpl. by rewrite app_nil_r.
Qed.

(** ** The two folds *)

Lemma reduce_snoc {A B} (f : B → A → B) i l x :
  reduce f i (l ++ [x]) = f (reduce f i l) x.
Proof. unfold reduce. by rewrite fold_left_app. Qed.

Lemma metadata_dom controllers :
  dom (reduce metadataReducer ∅ controllers)
  = list_to_set (name <$> controllers).
Proof.
  induction controllers as [|c l IH] using rev_ind.
  - unfold reduce; simpl. apply dom_empty_L.
  - rewrite reduce_snoc. unfold metadataReducer at 1.
    rewrite dom_insert_L, IH, fmap_app, list_to_set_app_L. simpl.
    by rewrite (right_id_L ∅ (∪)), (comm_L (∪)).
Qed.

(** The entry under a name is the one written for the last child of that
    name. *)
Lemma metadata_lookup_last pre c post :
  name c ∉ name <$> post →
  reduce metadataReducer ∅ (pre ++ c :: post) !! name c
  = Some (if isBaseController c then get c "metadata" else defaultMetadata).
Proof.
  induction post as [|x post IH] using rev_ind; intros Hnot.
  - rewrite reduce_snoc. unfold metadataReducer at 1.
    apply lookup_insert_eq.
  - rewrite app_comm_cons, app_assoc, reduce_snoc.
    rewrite fmap_app in Hnot. apply not_elem_of_app in Hnot as [Hpost Hx].
    unfold metadataReducer at 1. rewrite lookup_insert_ne.
    + by apply IH.
    + simpl in Hx. set_solver.
Qed.

Lemma stateReducer_lookup st c n :
  stateReducer st c !! n
  = match state c with
    | Some s => if decide (name c = n) then Some s else st !! n
    | None => st !! n
    end.
Proof.
  unfold stateReducer, hasProperty, get.
  change (property "state" c) with (state c).
  destruct (state c); [|done]. by rewrite lookup_insert.
Qed.

(** No child of that name with a [state] property: no entry. *)
Lemma state_lookup_none controllers n :
  (∀ c, c ∈ controllers → name c = n → state c = None) →
  reduce stateReducer ∅ controllers !! n = None.
Proof.
  induction controllers as [|x l IH] using rev_ind; intros H.
  - done.
  - rewrite reduce_snoc, stateReducer_lookup.
    destruct (state x) eqn:Hs.
    + case_decide as Hn.
      * rewrite (H x) in Hs; [done | set_solver | done].
      * apply IH. intros c Hc. apply H. set_solver.
    + apply IH. intros c Hc. apply H. set_solver.
Qed.

(** The entry under a name is the state of the last child of that name
    that has a [state] property. *)
Lemma state_lookup_last pre c post s :
  state c = Some s →
  (∀ c', c' ∈ post → name c' = name c → state c' = None) →
  reduce stateReducer ∅ (pre ++ c :: post) !! name c = Some s.
Proof.
  intros Hs.
  induction post as [|x post IH] using rev_ind; intros H.
  - rewrite reduce_snoc, stateReducer_lookup, Hs. by rewrite decide_True.
  - rewrite app_comm_cons, app_assoc, reduce_snoc, stateReducer_lookup.
    destruct (state x) eqn:Hx.
    + case_decide as Hn.
      * rewrite (H x) in Hx; [done | set_solver | done].
      * apply IH. intros c' Hc'. apply H. set_solver.
    + apply IH. intros c' Hc'. apply H. set_solver.
Qed.

Lemma state_lookup_some controllers n s :
  reduce stateReducer ∅ controllers !! n = Some s →
  ∃ c, c ∈ controllers ∧ name c = n ∧ state c = Some s.
Proof.
  induction controllers as [|x l IH] using rev_ind.
  - done.
  - rewrite reduce_snoc, stateReducer_lookup. intros H.
    assert (reduce stateReducer ∅ l !! n = Some s → 
            ∃ c, c ∈ l ++ [x] ∧ name c = n ∧ state c = Some s) as Hl.
    { intros Hl. destruct (IH Hl) as (c & Hc & Hn & Hs).
      exists c. split; [|done]. apply elem_of_app. by left. }
    destruct (state x) eqn:Hx; [|by apply Hl].
    case_decide as Hn; [|by apply Hl].
    exists x. split; [|by simplify_eq].
    apply elem_of_app. right. by apply list_elem_of_singleton.
Qed.

Lemma unique_name_unique_child (controllers : list WalletComponentInstance)
    c c' :
  NoDup (name <$> controllers) →
  c ∈ controllers → c' ∈ controllers → name c = name c' → c = c'.
Proof.
  induction controllers as [|x l IH]; simpl; intros Hnd Hc Hc' Hn.
  - by apply elem_of_nil in Hc.
  - apply NoDup_cons in Hnd as [Hx Hnd].
    apply elem_of_cons in Hc as [->|Hc];
      apply elem_of_cons in Hc' as [->|Hc']; try done.
    + destruct Hx. rewrite Hn. by apply list_elem_of_fmap_2.
    + destruct Hx. rewrite <- Hn. by apply list_elem_of_fmap_2.
    + by apply IH.
Qed.

(** ** Construction without a messenger *)

(** C6. Whatever the child list, constructing with an absent messenger
    throws the "Messaging system is required" error before anything else
    happens: the effect log is empty, so no subscription of any kind was
    registered, and no instance (hence no composite state or metadata)
    comes out. *)
Theorem constructor_without_messenger controllers :
  constructor controllers None = ([], inl ConfigurationError).
Proof. reflexivity. Qed.

(** ** Subscription bridging *)



(** X12. Classification of a child.  A [BaseController], or a
    [BaseControllerV1] that also has a messaging system, is subscribed to
    on the messenger under the topic [name:stateChange]; a
    [BaseControllerV1] without a messaging system gets the listener
    through its own [subscribe] instead.  In both cases the listener is
    the same one, the closure over the child's name. *)
Theorem subscription_bridging component :
  ((isBaseController component = true ∨
    (isBaseControllerV1 component = true ∧
     is_Some (messagingSystem component))) →
   updateChildController component
   = ([Messenger_subscribe (name component +:+ ":stateChange")
         (SliceListener (name component))], inr tt)) ∧
  ((isBaseControllerV1 component = true ∧
    messagingSystem component = None) →
   updateChildController component
   = ([Component_subscribe component (SliceListener (name component))],
      inr tt)).
Proof.
  split.
  - intros [H | [H1 H2]]; unfold updateChildController.
    + by rewrite H.
    + apply isMessengerConsumer_spec in H2. rewrite H1, H2.
      by rewrite orb_true_r.
  - intros (H1 & H2). unfold updateChildController.
    assert (isBaseController component = false) as H0.
    { destruct (isBaseController component) eqn:E; [|done].
      apply isBaseController_class in E.
      apply isBaseControllerV1_class in H1. congruence. }
    assert (isMessengerConsumer component = false) as ->.
    { destruct (isMessengerConsumer component) eqn:E; [|done].
      apply isMessengerConsumer_spec in E. rewrite H2 in E. by destruct E. }
    by rewrite H0, H1.
Qed.

Lemma subscription_bridging_witness :
  updateChildController (Samples.modern "A" Samples.x1 (JsObject []))
  = ([Messenger_subscribe "A:stateChange" (SliceListener "A")], inr tt) ∧
  updateChildController (Samples.legacy "B" Samples.y2 false)
  = ([Component_subscribe (Samples.legacy "B" Samples.y2 false)
        (SliceListener "B")], inr tt).
Proof.
  split.
  - apply (proj1 (subscription_bridging
                    (Samples.modern "A" Samples.x1 (JsObject [])))).
    left. reflexivity.
  - apply (proj2 (subscription_bridging
                    (Samples.legacy "B" Samples.y2 false))).
    repeat split; reflexivity.
Defined.

(** C5. Children named [__proto__] are classified like any other: the
    [BaseController] is subscribed to on the messenger under
    [__proto__:stateChange], the [BaseControllerV1] without a messaging
    system through its own [subscribe].  The listener both get does not
    perform the slice replacement: run on a new state object it throws,
    and nothing is stored or published. *)
Theorem bridged_listener_of_proto_named_child_throws :
  updateChildController (Samples.modern "__proto__" Samples.x1 (JsObject []))
  = ([Messenger_subscribe "__proto__:stateChange"
        (SliceListener "__proto__")], inr tt) ∧
  updateChildController (Samples.legacy "__proto__" Samples.y2 false)
  = ([Component_subscribe (Samples.legacy "__proto__" Samples.y2 false)
        (SliceListener "__proto__")], inr tt) ∧
  call (SliceListener "__proto__") Samples.y3
       (super controllerName
          (<["__proto__" := defaultMetadata]> ∅)
          (<["__proto__" := Samples.y2]> ∅)
          Samples.messenger)
  = ([], inl DraftPrototypeError).
Proof. repeat split; reflexivity. Qed.

Lemma registered_updateChildController component listener :
  listener ∈ registered (effects (updateChildController component)) →
  listener = SliceListener (name component).
Proof.
  unfold updateChildController.
  destruct (isBaseController component || _); simpl.
  { by intros ->%list_elem_of_singleton. }
  destruct (isBaseControllerV1 component); simpl.
  { by intros ->%list_elem_of_singleton. }
  destruct (negb _); simpl; by intros ?%elem_of_nil.
Qed.



(** C4. The listener registered for a child named [__proto__] does not
    replace that child's slice.  Construction puts the child's state under
    [__proto__] and registers the listener; run on a new state object the
    listener throws, so the entry stays what it was and nothing is
    published. *)
Theorem listener_of_proto_named_child_throws :
  let child := Samples.modern "__proto__" Samples.x1 (JsObject []) in
  ∃ this,
    constructor [child] (Some Samples.messenger)
    = ([Messenger_subscribe "__proto__:stateChange"
          (SliceListener "__proto__")], inr this) ∧
    SliceListener "__proto__"
    ∈ registered (effects (updateChildController child)) ∧
    this_state this !! "__proto__" = Some Samples.x1 ∧
    call (SliceListener "__proto__") Samples.y3 this
    = ([], inl DraftPrototypeError).
Proof.
  simpl. eexists. split; [reflexivity|].
  split; [apply list_elem_of_singleton; reflexivity|].
  split; reflexivity.
Qed.

(** ** Failure in the middle of the child list *)

(** C7. When the children before some position are all accepted and the
    child at that position is not, construction with a messenger throws
    the "Invalid component" error, and the effect log it leaves behind is
    exactly the subscriptions of the children before that position, each
    of them still in place. *)
Theorem constructor_invalid_child_keeps_subscriptions
    pre bad post messenger :
  Forall (λ c, accepted c = true) pre →
  accepted bad = false →
  outcome (constructor (pre ++ bad :: post) (Some messenger))
  = inl ValidationError ∧
  effects (constructor (pre ++ bad :: post) (Some messenger))
  = effects (constructor pre (Some messenger)) ∧
  effects (constructor (pre ++ bad :: post) (Some messenger))
  = flat_map (λ c, effects (updateChildController c)) pre ∧
  (∀ c e, c ∈ pre → e ∈ effects (updateChildController c) →
     e ∈ effects (constructor (pre ++ bad :: post) (Some messenger))).
Proof.
  intros Hpre Hbad.
  assert (constructor (pre ++ bad :: post) (Some messenger)
          = (flat_map (λ c, effects (updateChildController c)) pre,
             inl ValidationError)) as ->.
  { unfold constructor. by rewrite (forEach_rejected _ _ _ Hpre Hbad). }
  rewrite (constructor_accepted _ _ Hpre). simpl.
  repeat split; try done.
  intros c e Hc He. apply list_elem_of_In, in_flat_map.
  exists c. split; by apply list_elem_of_In.
Qed.

Lemma constructor_invalid_child_keeps_subscriptions_witness :
  constructor [Samples.modern "A" Samples.x1 (JsObject []);
               Samples.legacy "B" Samples.y2 false;
               Samples.bare "C";
               Samples.modern "D" Samples.x1 (JsObject [])]
              (Some Samples.messenger)
  = ([Messenger_subscribe "A:stateChange" (SliceListener "A");
      Component_subscribe (Samples.legacy "B" Samples.y2 false)
        (SliceListener "B")],
     inl ValidationError).
Proof.
  pose proof (constructor_invalid_child_keeps_subscriptions
                [Samples.modern "A" Samples.x1 (JsObject []);
                 Samples.legacy "B" Samples.y2 false]
                (Samples.bare "C")
                [Samples.modern "D" Samples.x1 (JsObject [])]
                Samples.messenger) as H.
  destruct H as (Hout & _ & Heff & _).
  - repeat constructor.
  - reflexivity.
  - unfold outcome, effects in Hout, Heff. simpl app in Hout, Heff.
    destruct (constructor _ _) as [log r]. simpl in Hout, Heff.
    rewrite Hout, Heff. reflexivity.
Defined.

(** ** The composite state *)

(** C3. For a child list whose members are all accepted and whose names
    are pairwise different, construction with a messenger succeeds, the
    names in the composite state are exactly the names of the children
    that have a [state] property, and under each child's name stands that
    child's [state] as it was read at construction; a child without a
    [state] property has no entry. *)
Theorem composite_state_of_unique_names controllers messenger :
  Forall (λ c, accepted c = true) controllers →
  NoDup (name <$> controllers) →
  ∃ this,
    outcome (constructor controllers (Some messenger)) = inr this ∧
    (∀ n, n ∈ dom (this_state this) ↔
          ∃ c, c ∈ controllers ∧ name c = n ∧ is_Some (state c)) ∧
    (∀ c, c ∈ controllers → this_state this !! name c = state c).
Proof.
  intros Hacc Hnd. rewrite (constructor_accepted _ _ Hacc).
  eexists. split; [reflexivity|]. simpl.
  assert (∀ c, c ∈ controllers →
            reduce stateReducer ∅ controllers !! name c = state c) as Hval.
  { intros c Hc. destruct (state c) as [s|] eqn:Hs.
    - apply list_elem_of_split in Hc as (pre & post & ->).
      apply state_lookup_last; [done|].
      intros c' Hc' Hn.
      assert (c' = c) as ->; [|exfalso].
      { apply (unique_name_unique_child (pre ++ c :: post)); try done.
        - apply elem_of_app. right. by right.
        - apply elem_of_app. right. by left. }
      rewrite fmap_app, fmap_cons in Hnd.
      apply NoDup_app in Hnd as (_ & _ & Hnd).
      apply NoDup_cons in Hnd as [Hnd _].
      apply Hnd. by apply list_elem_of_fmap_2.
    - apply state_lookup_none. intros c' Hc' Hn.
      by rewrite (unique_name_unique_child controllers c' c). }
  split; [|done].
  intros n. rewrite elem_of_dom. split.
  - intros [s Hs]. apply state_lookup_some in Hs as (c & Hc & Hn & Hs).
    exists c. by rewrite Hs.
  - intros (c & Hc & <- & Hs). by rewrite Hval.
Qed.

Lemma composite_state_of_unique_names_witness :
  ∃ this,
    outcome (constructor [Samples.modern "A" Samples.x1 (JsObject []);
                          Samples.legacy "B" Samples.y2 false;
                          Samples.consumer "C"]
                         (Some Samples.messenger)) = inr this ∧
    this_state this !! "A" = Some Samples.x1 ∧
    this_state this !! "B" = Some Samples.y2 ∧
    this_state this !! "C" = None.
Proof.
  destruct (composite_state_of_unique_names
              [Samples.modern "A" Samples.x1 (JsObject []);
               Samples.legacy "B" Samples.y2 false;
               Samples.consumer "C"] Samples.messenger)
    as (this & Hout & _ & Hval).
  - repeat constructor.
  - apply (bool_decide_unpack _). reflexivity.
  - exists this. split; [exact Hout|].
    split; [|split].
    + apply (Hval (Samples.modern "A" Samples.x1 (JsObject []))).
      repeat constructor.
    + apply (Hval (Samples.legacy "B" Samples.y2 false)).
      repeat constructor.
    + apply (Hval (Samples.consumer "C")). repeat constructor.
Defined.

(** ** The composite metadata *)

(** Two accepted children share the name [A]; the first is a
    [BaseController] with metadata of its own, yet the entry under [A] is
    the default descriptor written for the second. *)
Lemma metadata_of_shadowed_child_is_not_copied :
  let first := Samples.modern "A" Samples.x1 Samples.fieldMetadata in
  let second := Samples.legacy "A" Samples.y2 false in
  Forall (λ c, accepted c = true) [first; second] ∧
  isBaseController first = true ∧
  metadata first = Some Samples.fieldMetadata ∧
  ∃ this,
    outcome (constructor [first; second] (Some Samples.messenger))
    = inr this ∧
    this_metadata this !! name first = Some defaultMetadata ∧
    this_metadata this !! name first ≠ Some Samples.fieldMetadata.
Proof.
  simpl. split; [by repeat constructor|]. do 2 (split; [reflexivity|]).
  eexists. split; [reflexivity|]. split; [reflexivity|].
  vm_compute. discriminate.
Qed.

(** C1 (amended). For a child list whose members are all accepted,
    construction with a messenger succeeds and the names in the composite
    metadata are exactly the names of the children.  For each child that
    is the last of its name in the list, the entry under its name is its
    own [metadata], as it stands, when the child is a [BaseController],
    and the default descriptor [{ persist: true, anonymous: true }] when
    it is not. *)
Theorem composite_metadata_of_last_children controllers messenger :
  Forall (λ c, accepted c = true) controllers →
  ∃ this,
    outcome (constructor controllers (Some messenger)) = inr this ∧
    dom (this_metadata this) = list_to_set (name <$> controllers) ∧
    (∀ pre c post,
       controllers = pre ++ c :: post →
       name c ∉ name <$> post →
       (isBaseController c = true →
        ∃ md, metadata c = Some md ∧
              this_metadata this !! name c = Some md) ∧
       (isBaseController c = false →
        this_metadata this !! name c = Some defaultMetadata)).
Proof.
  intros Hacc. rewrite (constructor_accepted _ _ Hacc).
  eexists. split; [reflexivity|]. simpl.
  split; [apply metadata_dom|].
  intros pre c post -> Hlast.
  rewrite (metadata_lookup_last _ _ _ Hlast). split; intros Hc; rewrite Hc.
  - destruct (isBaseController_metadata _ Hc) as [md Hmd].
    exists md. split; [done|]. by rewrite (get_metadata _ _ Hmd).
  - done.
Qed.

Lemma composite_metadata_of_last_children_witness :
  ∃ this,
    outcome (constructor [Samples.modern "A" Samples.x1 Samples.fieldMetadata;
                          Samples.legacy "B" Samples.y2 false]
                         (Some Samples.messenger)) = inr this ∧
    dom (this_metadata this) = {["A"; "B"]} ∧
    this_metadata this !! "A" = Some Samples.fieldMetadata ∧
    this_metadata this !! "B" = Some defaultMetadata.
Proof.
  destruct (composite_metadata_of_last_children
              [Samples.modern "A" Samples.x1 Samples.fieldMetadata;
               Samples.legacy "B" Samples.y2 false] Samples.messenger)
    as (this & Hout & Hdom & Hval).
  - repeat constructor.
  - exists this. split; [exact Hout|]. split; [rewrite Hdom; reflexivity|].
    split.
    + destruct (Hval [] (Samples.modern "A" Samples.x1 Samples.fieldMetadata)
                  [Samples.legacy "B" Samples.y2 false]) as [Hmodern _].
      * reflexivity.
      * apply (bool_decide_unpack _). reflexivity.
      * destruct (Hmodern eq_refl) as (md & Hmd & Hentry).
        simpl in Hmd. injection Hmd as <-. exact Hentry.
    + destruct (Hval [Samples.modern "A" Samples.x1 Samples.fieldMetadata]
                  (Samples.legacy "B" Samples.y2 false) []) as [_ Hlegacy].
      * reflexivity.
      * apply (bool_decide_unpack _). reflexivity.
      * exact (Hlegacy eq_refl).
Defined.

(** ** Components that are only messenger consumers *)

Lemma first_rejected controllers :
  (∃ c, c ∈ controllers ∧ accepted c = false) →
  ∃ pre bad post,
    controllers = pre ++ bad :: post ∧
    Forall (λ c, accepted c = true) pre ∧ accepted bad = false.
Proof.
  induction controllers as [|x l IH]; intros (c & Hc & Hrej).
  - by apply elem_of_nil in Hc.
  - destruct (accepted x) eqn:Hx.
    + apply elem_of_cons in Hc as [->|Hc]; [congruence|].
      destruct IH as (pre & bad & post & -> & Hpre & Hbad); [by exists c|].
      exists (x :: pre), bad, post. by repeat split; [constructor|].
    + by exists [], x, l.
Qed.

Lemma accepted_spec c :
  accepted c = true ↔
  isBaseController c = true ∨ isBaseControllerV1 c = true ∨
  is_Some (messagingSystem c).
Proof.
  unfold accepted. rewrite <- isMessengerConsumer_spec.
  destruct (isBaseController c), (isBaseControllerV1 c),
    (isMessengerConsumer c); simpl; split; intros H; auto;
    destruct H as [?|[?|?]]; done.
Qed.

(** A component with a name and a messaging system and nothing else is
    neither kind of controller, and a list made of it constructs. *)
Lemma messenger_consumer_is_not_rejected :
  let c := Samples.consumer "A" in
  isMessengerConsumer c = true ∧
  isBaseController c = false ∧
  isBaseControllerV1 c = false ∧
  constructor [c] (Some Samples.messenger)
  = ([], inr (super controllerName (<["A" := defaultMetadata]> ∅) ∅
                Samples.messenger)) ∧
  outcome (constructor [c] (Some Samples.messenger)) ≠ inl ValidationError.
Proof. simpl. repeat split; try reflexivity. discriminate. Qed.

(** C2 (amended). Construction with a messenger throws the "Invalid
    component" error when the child list contains a component that is
    neither a [BaseController] nor a [BaseControllerV1] and has no
    messaging system.  A component that has a messaging system is
    accepted whatever else it lacks: a list whose members are each a
    [BaseController], a [BaseControllerV1] or a component with a messaging
    system constructs without error. *)
Theorem validation_error_needs_no_messaging_system controllers messenger :
  ((∃ c, c ∈ controllers ∧
         isBaseController c = false ∧
         isBaseControllerV1 c = false ∧
         messagingSystem c = None) →
   outcome (constructor controllers (Some messenger)) = inl ValidationError) ∧
  (Forall (λ c, isBaseController c = true ∨
                isBaseControllerV1 c = true ∨
                is_Some (messagingSystem c)) controllers →
   ∃ this, outcome (constructor controllers (Some messenger)) = inr this).
Proof.
  split.
  - intros (c & Hc & H0 & H1 & H2).
    destruct (first_rejected controllers) as (pre & bad & post & -> & Hpre & Hbad).
    { exists c. split; [done|].
      destruct (accepted c) eqn:Hacc; [|done].
      apply accepted_spec in Hacc as [?|[?|Hm]]; try congruence.
      rewrite H2 in Hm. by destruct Hm. }
    unfold constructor. by rewrite (forEach_rejected _ _ _ Hpre Hbad).
  - intros Hall. eexists. rewrite constructor_accepted; [reflexivity|].
    eapply Forall_impl; [exact Hall|]. intros c. apply accepted_spec.
Qed.

Lemma validation_error_needs_no_messaging_system_witness :
  outcome (constructor [Samples.consumer "A"; Samples.bare "C"]
             (Some Samples.messenger)) = inl ValidationError ∧
  ∃ this,
    outcome (constructor [Samples.consumer "A";
                          Samples.modern "B" Samples.x1 (JsObject [])]
               (Some Samples.messenger)) = inr this.
Proof.
  split.
  - apply (proj1 (validation_error_needs_no_messaging_system
                    [Samples.consumer "A"; Samples.bare "C"]
                    Samples.messenger)).
    exists (Samples.bare "C"). split; [|repeat split; reflexivity].
    repeat constructor.
  - apply (proj2 (validation_error_needs_no_messaging_system
                    [Samples.consumer "A";
                     Samples.modern "B" Samples.x1 (JsObject [])]
                    Samples.messenger)).
    constructor; [right; right; eexists; reflexivity|].
    constructor; [left; reflexivity|]. constructor.
Defined.

Lemma updateChildController_consumer c :
  isMessengerConsumer c = true →
  isBaseController c = false →
  isBaseControllerV1 c = false →
  updateChildController c = ([], inr tt).
Proof.
  intros Hm H0 H1. unfold updateChildController. by rewrite Hm, H0, H1.
Qed.

(** A child the loop does nothing on can be dropped from the loop. *)
Lemma forEach_skip {A} (f : A → M unit) pre x post :
  f x = ([], inr tt) →
  forEach f (pre ++ x :: post) = forEach f (pre ++ post).
Proof.
  intros Hx. induction pre as [|y pre IH]; simpl.
  - rewrite Hx, bind_value. simpl. by destruct (forEach f post).
  - by rewrite IH.
Qed.

(** A messenger consumer of another class that keeps a [state] property is
    neither kind of controller, and its [state] does enter the composite
    state. *)
Lemma messenger_consumer_state_is_composed :
  let c := Samples.statefulConsumer "A" Samples.x1 in
  isMessengerConsumer c = true ∧
  isBaseController c = false ∧
  isBaseControllerV1 c = false ∧
  ∃ this,
    constructor [c] (Some Samples.messenger) = ([], inr this) ∧
    this_state this !! name c = Some Samples.x1 ∧
    this_state this !! name c ≠ None.
Proof.
  simpl. do 3 (split; [reflexivity|]).
  eexists. split; [reflexivity|]. split; [reflexivity|].
  vm_compute. discriminate.
Qed.

(** C9 (amended). A child that has a name and a messaging system but is
    neither a [BaseController] nor a [BaseControllerV1] passes
    [#updateChildController] without an error and without any
    subscription; the metadata fold writes the default descriptor under
    its name; the state fold writes its [state] under its name when it has
    a [state] property and leaves the state untouched when it has none.
    Taking the child out of the list changes neither the effect log of the
    construction nor whether it throws. *)
Theorem messenger_consumer_child c :
  isMessengerConsumer c = true →
  isBaseController c = false →
  isBaseControllerV1 c = false →
  updateChildController c = ([], inr tt) ∧
  (∀ md, metadataReducer md c = <[name c := defaultMetadata]> md) ∧
  (∀ st, stateReducer st c
         = match state c with
           | Some s => <[name c := s]> st
           | None => st
           end) ∧
  (∀ pre post messenger,
     effects (constructor (pre ++ c :: post) messenger)
     = effects (constructor (pre ++ post) messenger) ∧
     (∀ e, outcome (constructor (pre ++ c :: post) messenger) = inl e ↔
           outcome (constructor (pre ++ post) messenger) = inl e)) ∧
  (∀ messenger,
     constructor [c] (Some messenger)
     = ([], inr (super controllerName
                   (<[name c := defaultMetadata]> ∅)
                   (match state c with
                    | Some s => <[name c := s]> ∅
                    | None => ∅
                    end)
                   messenger))).
Proof.
  intros Hm H0 H1.
  pose proof (updateChildController_consumer c Hm H0 H1) as Hupd.
  assert (∀ md, metadataReducer md c = <[name c := defaultMetadata]> md)
    as Hmd.
  { intros md. unfold metadataReducer. by rewrite H0. }
  assert (∀ st, stateReducer st c
                = match state c with
                  | Some s => <[name c := s]> st
                  | None => st
                  end) as Hst.
  { intros st. unfold stateReducer, hasProperty, get.
    change (property "state" c) with (state c). by destruct (state c). }
  repeat split; try done.
  - destruct messenger as [m|]; [|done]. unfold constructor.
    rewrite (forEach_skip _ _ _ _ Hupd).
    by destruct (forEach updateChildController (pre ++ post)) as [log [e|[]]].
  - destruct messenger as [m|]; [|done]. unfold constructor.
    rewrite (forEach_skip _ _ _ _ Hupd).
    by destruct (forEach updateChildController (pre ++ post)) as [log [e'|[]]].
  - destruct messenger as [m|]; [|done]. unfold constructor.
    rewrite (forEach_skip _ _ _ _ Hupd).
    by destruct (forEach updateChildController (pre ++ post)) as [log [e'|[]]].
  - intros messenger. unfold constructor. simpl. rewrite Hupd.
    unfold reduce. simpl. by rewrite Hmd, Hst.
Qed.

Lemma messenger_consumer_child_witness :
  updateChildController (Samples.consumer "C") = ([], inr tt) ∧
  constructor [Samples.consumer "C"] (Some Samples.messenger)
  = ([], inr (super controllerName (<["C" := defaultMetadata]> ∅) ∅
                Samples.messenger)) ∧
  constructor [Samples.statefulConsumer "S" Samples.x1]
              (Some Samples.messenger)
  = ([], inr (super controllerName (<["S" := defaultMetadata]> ∅)
                (<["S" := Samples.x1]> ∅) Samples.messenger)).
Proof.
  destruct (messenger_consumer_child (Samples.consumer "C"))
    as (Hupd & _ & _ & _ & Hone); [reflexivity..|].
  destruct (messenger_consumer_child
              (Samples.statefulConsumer "S" Samples.x1))
    as (_ & _ & _ & _ & Hone'); [reflexivity..|].
  split; [exact Hupd|]. split.
  - exact (Hone Samples.messenger).
  - exact (Hone' Samples.messenger).
Defined.

(** ** Children that share a name *)

(** Two accepted children share the name [A]; the last one has no [state]
    property, and the composite state under [A] is the state of the
    first. *)
Lemma state_of_last_duplicate_is_not_always_written :
  let first := Samples.modern "A" Samples.x1 (JsObject []) in
  let second := Samples.consumer "A" in
  name first = name second ∧
  state second = None ∧
  ∃ this,
    constructor [first; second] (Some Samples.messenger)
    = ([Messenger_subscribe "A:stateChange" (SliceListener "A")], inr this) ∧
    this_state this !! "A" = state first ∧
    this_state this !! "A" ≠ state second.
Proof.
  simpl. do 2 (split; [reflexivity|]).
  eexists. split; [reflexivity|]. split; [reflexivity|].
  vm_compute. discriminate.
Qed.

(** C8 (amended). For a child list whose members are all accepted,
    whatever names they share: the composite metadata under a name is the
    entry of the last child of that name (its own [metadata] for a
    [BaseController], the default descriptor otherwise); the composite
    state under a name is the [state] of the last child of that name that
    has a [state] property, and there is no entry when no child of that
    name has one. *)
Theorem duplicate_names_last_write_wins controllers messenger :
  Forall (λ c, accepted c = true) controllers →
  ∃ this,
    outcome (constructor controllers (Some messenger)) = inr this ∧
    (∀ pre c post,
       controllers = pre ++ c :: post →
       name c ∉ name <$> post →
       this_metadata this !! name c
       = Some (if isBaseController c then get c "metadata"
               else defaultMetadata)) ∧
    (∀ pre c post s,
       controllers = pre ++ c :: post →
       state c = Some s →
       (∀ c', c' ∈ post → name c' = name c → state c' = None) →
       this_state this !! name c = Some s) ∧
    (∀ n,
       (∀ c, c ∈ controllers → name c = n → state c = None) →
       this_state this !! n = None).
Proof.
  intros Hacc. rewrite (constructor_accepted _ _ Hacc).
  eexists. split; [reflexivity|]. simpl. split; [|split].
  - intros pre c post -> Hlast. by apply metadata_lookup_last.
  - intros pre c post s -> Hs Hpost. by apply state_lookup_last.
  - intros n Hn. by apply state_lookup_none.
Qed.

Lemma duplicate_names_last_write_wins_witness :
  ∃ this,
    outcome (constructor [Samples.legacy "A" Samples.y2 false;
                          Samples.modern "A" Samples.x1 Samples.fieldMetadata;
                          Samples.consumer "A"]
               (Some Samples.messenger)) = inr this ∧
    this_metadata this !! "A" = Some defaultMetadata ∧
    this_state this !! "A" = Some Samples.x1.
Proof.
  destruct (duplicate_names_last_write_wins
              [Samples.legacy "A" Samples.y2 false;
               Samples.modern "A" Samples.x1 Samples.fieldMetadata;
               Samples.consumer "A"] Samples.messenger)
    as (this & Hout & Hmd & Hst & _).
  - repeat constructor.
  - exists this. split; [exact Hout|]. split.
    + apply (Hmd [Samples.legacy "A" Samples.y2 false;
                  Samples.modern "A" Samples.x1 Samples.fieldMetadata]
                 (Samples.consumer "A") []).
      * reflexivity.
      * apply (bool_decide_unpack _). reflexivity.
    + apply (Hst [Samples.legacy "A" Samples.y2 false]
                 (Samples.modern "A" Samples.x1 Samples.fieldMetadata)
                 [Samples.consumer "A"]).
      * reflexivity.
      * reflexivity.
      * intros c' Hc' _. apply list_elem_of_singleton in Hc'.
        rewrite Hc'. reflexivity.
Defined.

(** ** The [disabled] property *)

Lemma isBaseControllerV1_setDisabled c b :
  isBaseControllerV1 c = true →
  isBaseControllerV1 (setDisabled (Some (JsBoolean b)) c) = true.
Proof.
  intros H. destruct (isBaseControllerV1_disabled c H) as [b' Hb'].
  revert H. unfold isBaseControllerV1, hasProperty, get, instanceof.
  cbn. by rewrite Hb'.
Qed.

Lemma isBaseController_setDisabled c v :
  isBaseController (setDisabled v c) = isBaseController c.
Proof. reflexivity. Qed.

Lemma isMessengerConsumer_setDisabled c v :
  isMessengerConsumer (setDisabled v c) = isMessengerConsumer c.
Proof. reflexivity. Qed.

Lemma blankDisabled_updateChildController c b :
  isBaseControllerV1 c = true →
  blankDisabled <$> effects (updateChildController
                               (setDisabled (Some (JsBoolean b)) c))
  = blankDisabled <$> effects (updateChildController c) ∧
  outcome (updateChildController (setDisabled (Some (JsBoolean b)) c))
  = outcome (updateChildController c).
Proof.
  intros H. unfold updateChildController.
  rewrite isBaseController_setDisabled, isMessengerConsumer_setDisabled.
  rewrite (isBaseControllerV1_setDisabled c b H), H.
  destruct (isBaseController c || true && isMessengerConsumer c); done.
Qed.

Lemma blankDisabled_forEach pre c c' post :
  blankDisabled <$> effects (updateChildController c')
  = blankDisabled <$> effects (updateChildController c) →
  outcome (updateChildController c') = outcome (updateChildController c) →
  blankDisabled <$> effects (forEach updateChildController (pre ++ c' :: post))
  = blankDisabled <$> effects (forEach updateChildController (pre ++ c :: post)) ∧
  outcome (forEach updateChildController (pre ++ c' :: post))
  = outcome (forEach updateChildController (pre ++ c :: post)).
Proof.
  intros Heff Hout.
  induction pre as [|x pre [IHe IHo]]; cbn [app]; rewrite !forEach_cons.
  - destruct (updateChildController c') as [log' r'],
      (updateChildController c) as [log r].
    unfold effects, outcome in Heff, Hout. simpl in Heff, Hout. subst r'.
    destruct r as [e|[]]; [done|]. rewrite !bind_value.
    unfold effects, outcome. simpl. by rewrite !fmap_app, Heff.
  - destruct (updateChildController x) as [log [e|[]]]; [done|].
    rewrite !bind_value. unfold effects, outcome in *. simpl.
    by rewrite !fmap_app, IHe, IHo.
Qed.

Lemma reduce_middle {A B} (f : B → A → B) i pre x post :
  reduce f i (pre ++ x :: post) = reduce f (f (reduce f i pre) x) post.
Proof. unfold reduce. by rewrite fold_left_app. Qed.

(** C10. For a [BaseControllerV1] child, which value its boolean
    [disabled] holds changes nothing: with the flag set to any boolean the
    child is still a [BaseControllerV1] and is classified as before, both
    folds write the same entries, the same listener is registered in the
    same way (the effect logs are equal once the [disabled] of the child a
    [subscribe] was called on is blanked out), construction has the same
    outcome with the same composite state and metadata, and the listener
    does the same slice replacement.  What classification does check is
    that [disabled] is there and is a boolean. *)
Theorem disabled_value_is_ignored c b :
  isBaseControllerV1 c = true →
  (∃ b0, disabled c = Some (JsBoolean b0)) ∧
  (∀ v, (∀ b', v ≠ Some (JsBoolean b')) →
        isBaseControllerV1 (setDisabled v c) = false) ∧
  isBaseControllerV1 (setDisabled (Some (JsBoolean b)) c) = true ∧
  isBaseController (setDisabled (Some (JsBoolean b)) c)
  = isBaseController c ∧
  isMessengerConsumer (setDisabled (Some (JsBoolean b)) c)
  = isMessengerConsumer c ∧
  (∀ md, metadataReducer md (setDisabled (Some (JsBoolean b)) c)
         = metadataReducer md c) ∧
  (∀ st, stateReducer st (setDisabled (Some (JsBoolean b)) c)
         = stateReducer st c) ∧
  registered (effects (updateChildController
                         (setDisabled (Some (JsBoolean b)) c)))
  = registered (effects (updateChildController c)) ∧
  (∀ pre post messenger,
     blankDisabled <$> effects (constructor
                                  (pre ++ setDisabled (Some (JsBoolean b)) c
                                       :: post) messenger)
     = blankDisabled <$> effects (constructor (pre ++ c :: post) messenger) ∧
     outcome (constructor (pre ++ setDisabled (Some (JsBoolean b)) c :: post)
                messenger)
     = outcome (constructor (pre ++ c :: post) messenger)) ∧
  (∀ listener childState this,
     listener ∈ registered (effects (updateChildController
                                       (setDisabled (Some (JsBoolean b)) c))) →
     call listener childState this
     = call (SliceListener (name c)) childState this).
Proof.
  intros H.
  pose proof (isBaseControllerV1_setDisabled c b H) as H'.
  split; [by apply isBaseControllerV1_disabled|].
  split.
  { intros v Hv.
    destruct (isBaseControllerV1 (setDisabled v c)) eqn:E; [|done].
    apply isBaseControllerV1_disabled in E as [b' Hb'].
    by destruct (Hv b'). }
  do 5 (split; [done|]).
  split.
  { unfold updateChildController.
    rewrite isBaseController_setDisabled, isMessengerConsumer_setDisabled.
    rewrite H', H.
    by destruct (isBaseController c || true && isMessengerConsumer c). }
  split.
  - intros pre post [messenger|]; [|done].
    destruct (blankDisabled_updateChildController c b H) as [Heff Hout].
    destruct (blankDisabled_forEach pre c _ post Heff Hout) as [He Ho].
    unfold constructor.
    assert (reduce metadataReducer ∅
              (pre ++ setDisabled (Some (JsBoolean b)) c :: post)
            = reduce metadataReducer ∅ (pre ++ c :: post)) as ->.
    { by rewrite !reduce_middle. }
    assert (reduce stateReducer ∅
              (pre ++ setDisabled (Some (JsBoolean b)) c :: post)
            = reduce stateReducer ∅ (pre ++ c :: post)) as ->.
    { by rewrite !reduce_middle. }
    destruct (forEach _ (pre ++ setDisabled _ c :: post)) as [log' r'],
      (forEach _ (pre ++ c :: post)) as [log r].
    unfold effects, outcome in *. simpl in He, Ho. subst r'.
    destruct r as [e|[]]; [done|]. rewrite !bind_value.
    unfold effects, outcome. simpl. by rewrite !fmap_app, He.
  - intros listener childState this Hl.
    by rewrite (registered_updateChildController _ _ Hl).
Qed.

Lemma disabled_value_is_ignored_witness :
  blankDisabled <$> effects (constructor [Samples.legacy "B" Samples.y2 true]
                               (Some Samples.messenger))
  = blankDisabled <$> effects (constructor [Samples.legacy "B" Samples.y2 false]
                                 (Some Samples.messenger)) ∧
  outcome (constructor [Samples.legacy "B" Samples.y2 true]
             (Some Samples.messenger))
  = outcome (constructor [Samples.legacy "B" Samples.y2 false]
               (Some Samples.messenger)).
Proof.
  destruct (disabled_value_is_ignored (Samples.legacy "B" Samples.y2 false)
              true) as (_ & _ & _ & _ & _ & _ & _ & _ & Hlist & _).
  - reflexivity.
  - exact (Hlist [] [] (Some Samples.messenger)).
Defined.

(** ** When construction succeeds *)

Lemma forEach_outcome_accepted controllers :
  outcome (forEach updateChildController controllers) = inr tt →
  Forall (λ c, accepted c = true) controllers.
Proof.
  induction controllers as [|x l IH]; [constructor|].
  rewrite forEach_cons. destruct (accepted x) eqn:Hx.
  - pose proof (updateChildController_accepted x Hx) as Hout.
    destruct (updateChildController x) as [log r].
    unfold outcome in Hout. simpl in Hout. subst r.
    rewrite bind_value. intros H. constructor; [done|]. by apply IH.
  - by rewrite (updateChildController_rejected x Hx), bind_throw.
Qed.

(** A successful construction had a messenger and only accepted children,
    and its instance and its log are the ones read off the child list. *)
Lemma constructor_success controllers messenger this :
  outcome (constructor controllers messenger) = inr this →
  ∃ handle,
    messenger = Some handle ∧
    Forall (λ c, accepted c = true) controllers ∧
    this = super controllerName
             (reduce metadataReducer ∅ controllers)
             (reduce stateReducer ∅ controllers) handle ∧
    effects (constructor controllers messenger)
    = flat_map (λ c, effects (updateChildController c)) controllers.
Proof.
  destruct messenger as [handle|]; [|done]. intros H.
  assert (Forall (λ c, accepted c = true) controllers) as Hacc.
  { apply forEach_outcome_accepted. revert H. unfold constructor.
    by destruct (forEach updateChildController controllers) as [log [e|[]]]. }
  exists handle. rewrite (constructor_accepted _ _ Hacc) in H |- *.
  injection H as <-. done.
Qed.

(** ** Keys of the composite maps *)

Lemma state_dom controllers :
  dom (reduce stateReducer ∅ controllers)
  = list_to_set (name <$> filter (λ c, is_Some (state c)) controllers).
Proof.
  induction controllers as [|x l IH] using rev_ind.
  - unfold reduce; simpl. apply dom_empty_L.
  - rewrite reduce_snoc, filter_app, fmap_app, list_to_set_app_L, <- IH.
    unfold stateReducer, hasProperty.
    change (property "state" x) with (state x).
    rewrite filter_cons, filter_nil. destruct (state x) as [s|] eqn:Hs.
    + rewrite decide_True by (by eexists). rewrite dom_insert_L. simpl.
      by rewrite (right_id_L ∅ (∪)), (comm_L (∪)).
    + rewrite decide_False by (by intros [? ?]). simpl.
      by rewrite (right_id_L ∅ (∪)).
Qed.

(** X1. Whenever construction succeeds, with or without repeated names,
    the names in the composite state are exactly the names of the
    children that have a [state] property. *)
Theorem composite_state_keys controllers messenger this :
  outcome (constructor controllers messenger) = inr this →
  dom (this_state this)
  = list_to_set (name <$> filter (λ c, is_Some (state c)) controllers).
Proof.
  intros H. destruct (constructor_success _ _ _ H) as (handle & _ & _ & -> & _).
  apply state_dom.
Qed.

Lemma composite_state_keys_witness :
  ∃ this,
    outcome (constructor [Samples.modern "A" Samples.x1 (JsObject []);
                          Samples.consumer "C";
                          Samples.legacy "A" Samples.y2 false]
               (Some Samples.messenger)) = inr this ∧
    dom (this_state this) = {["A"]}.
Proof.
  eexists. split; [reflexivity|].
  rewrite (composite_state_keys
             [Samples.modern "A" Samples.x1 (JsObject []);
              Samples.consumer "C";
              Samples.legacy "A" Samples.y2 false]
             (Some Samples.messenger) _ eq_refl).
  vm_compute. reflexivity.
Defined.

(** X2. Whenever construction succeeds, every name that has an entry in
    the composite state also has an entry in the composite metadata. *)
Theorem composite_state_keys_have_metadata controllers messenger this :
  outcome (constructor controllers messenger) = inr this →
  dom (this_state this) ⊆ dom (this_metadata this).
Proof.
  intros H. destruct (constructor_success _ _ _ H) as (handle & _ & _ & -> & _).
  simpl. rewrite state_dom, metadata_dom. intros n.
  rewrite !elem_of_list_to_set, !list_elem_of_fmap.
  intros (c & -> & Hc). exists c. split; [done|].
  by apply list_elem_of_filter in Hc as [_ Hc].
Qed.

Lemma composite_state_keys_have_metadata_witness :
  ∃ this,
    outcome (constructor [Samples.modern "A" Samples.x1 (JsObject []);
                          Samples.consumer "C"]
               (Some Samples.messenger)) = inr this ∧
    dom (this_state this) ⊆ dom (this_metadata this).
Proof.
  eexists. split; [reflexivity|].
  exact (composite_state_keys_have_metadata
           [Samples.modern "A" Samples.x1 (JsObject []); Samples.consumer "C"]
           (Some Samples.messenger) _ eq_refl).
Defined.

(** ** What construction logs *)

Lemma forEach_effects {A} (f : A → M unit) l e :
  e ∈ effects (forEach f l) → ∃ x, x ∈ l ∧ e ∈ effects (f x).
Proof.
  induction l as [|x l IH]; [by intros ?%elem_of_nil|].
  rewrite forEach_cons. destruct (f x) as [log [err|[]]] eqn:Hf.
  - rewrite bind_throw. intros He. exists x. split; [by left|].
    by rewrite Hf.
  - rewrite bind_value. unfold effects at 1. simpl.
    intros [He|He]%elem_of_app.
    + exists x. split; [by left|]. by rewrite Hf.
    + destruct (IH He) as (y & Hy & Hey). exists y. split; [by right|done].
Qed.

Lemma constructor_effects controllers messenger e :
  e ∈ effects (constructor controllers messenger) →
  ∃ c, c ∈ controllers ∧ e ∈ effects (updateChildController c).
Proof.
  destruct messenger as [handle|]; [|by intros ?%elem_of_nil].
  unfold constructor. intros He. apply forEach_effects.
  destruct (forEach updateChildController controllers) as [log [err|[]]].
  - by rewrite bind_throw in He.
  - rewrite bind_value in He. unfold effects in He |- *. simpl in He |- *.
    by rewrite app_nil_r in He.
Qed.

Lemma updateChildController_effects c e :
  e ∈ effects (updateChildController c) →
  ((isBaseController c = true ∨
    (isBaseControllerV1 c = true ∧ isMessengerConsumer c = true)) ∧
   e = Messenger_subscribe (name c +:+ ":stateChange")
         (SliceListener (name c))) ∨
  (isBaseControllerV1 c = true ∧ isMessengerConsumer c = false ∧
   e = Component_subscribe c (SliceListener (name c))).
Proof.
  unfold updateChildController.
  destruct (isBaseController c), (isBaseControllerV1 c),
    (isMessengerConsumer c); simpl;
    intros He; try (by apply elem_of_nil in He);
    apply list_elem_of_singleton in He as ->; auto.
Qed.

(** X4. Whatever the child list and however construction ends, every
    effect it leaves is a subscription for one of the children, carrying
    the listener for that child's name: on the messenger under
    [name:stateChange] for a [BaseController] or a [BaseControllerV1] with
    a messaging system, on the child itself for a [BaseControllerV1]
    without one.  Construction never publishes. *)
Theorem constructor_only_subscribes controllers messenger e :
  e ∈ effects (constructor controllers messenger) →
  (∃ c, c ∈ controllers ∧
     (((isBaseController c = true ∨
        (isBaseControllerV1 c = true ∧ isMessengerConsumer c = true)) ∧
       e = Messenger_subscribe (name c +:+ ":stateChange")
             (SliceListener (name c))) ∨
      (isBaseControllerV1 c = true ∧ isMessengerConsumer c = false ∧
       e = Component_subscribe c (SliceListener (name c))))) ∧
  (∀ topic payload, e ≠ Messenger_publish topic payload).
Proof.
  intros He. destruct (constructor_effects _ _ _ He) as (c & Hc & Hec).
  apply updateChildController_effects in Hec.
  split; [by exists c|].
  intros topic payload ->.
  by destruct Hec as [[_ ?]|(_ & _ & ?)].
Qed.

Lemma constructor_only_subscribes_witness :
  ∃ c, c ∈ [Samples.legacy "B" Samples.y2 false; Samples.bare "C"] ∧
       Component_subscribe (Samples.legacy "B" Samples.y2 false)
         (SliceListener "B")
       = Component_subscribe c (SliceListener (name c)).
Proof.
  destruct (constructor_only_subscribes
              [Samples.legacy "B" Samples.y2 false; Samples.bare "C"]
              (Some Samples.messenger)
              (Component_subscribe (Samples.legacy "B" Samples.y2 false)
                 (SliceListener "B")))
    as [(c & Hc & [[_ He]|(_ & _ & He)]) _].
  - apply list_elem_of_singleton. reflexivity.
  - discriminate He.
  - exists c. split; [exact Hc | exact He].
Defined.

Lemma updateChildController_effects_length c :
  length (effects (updateChildController c))
  = if subscribed c then 1 else 0.
Proof.
  unfold updateChildController, subscribed.
  by destruct (isBaseController c), (isBaseControllerV1 c),
    (isMessengerConsumer c).
Qed.

Lemma subscriptions_of_children controllers :
  length (flat_map (λ c, effects (updateChildController c)) controllers)
  = length (filter (λ c, subscribed c = true) controllers) ∧
  registered (flat_map (λ c, effects (updateChildController c)) controllers)
  = (λ c, SliceListener (name c))
      <$> filter (λ c, subscribed c = true) controllers.
Proof.
  induction controllers as [|c l [IHlen IHreg]]; [done|].
  simpl flat_map. unfold registered in *.
  rewrite length_app, flat_map_app, filter_cons, IHlen, IHreg.
  rewrite updateChildController_effects_length.
  unfold updateChildController, subscribed.
  by destruct (isBaseController c), (isBaseControllerV1 c),
    (isMessengerConsumer c).
Qed.

(** X5. A successful construction registers one listener for every child
    that is a [BaseController] or a [BaseControllerV1], in list order and
    counting children of the same name separately, and none for the other
    children: the log is as long as the list of those children. *)
Theorem constructor_one_subscription_per_controller
    controllers messenger this :
  outcome (constructor controllers messenger) = inr this →
  length (effects (constructor controllers messenger))
  = length (filter (λ c, subscribed c = true) controllers) ∧
  registered (effects (constructor controllers messenger))
  = (λ c, SliceListener (name c))
      <$> filter (λ c, subscribed c = true) controllers.
Proof.
  intros H.
  destruct (constructor_success _ _ _ H) as (handle & _ & _ & _ & ->).
  apply subscriptions_of_children.
Qed.

Lemma constructor_one_subscription_per_controller_witness :
  length (effects (constructor
                     [Samples.modern "A" Samples.x1 (JsObject []);
                      Samples.consumer "C";
                      Samples.legacy "A" Samples.y2 false]
                     (Some Samples.messenger))) = 2.
Proof.
  destruct (constructor_one_subscription_per_controller
              [Samples.modern "A" Samples.x1 (JsObject []);
               Samples.consumer "C";
               Samples.legacy "A" Samples.y2 false]
              (Some Samples.messenger) _ eq_refl) as [Hlen _].
  rewrite Hlen. reflexivity.
Defined.

(** ** Notifications after construction *)










(** ** Joining and reordering child lists *)

Lemma metadata_reduce_union m l :
  reduce metadataReducer m l = reduce metadataReducer ∅ l ∪ m.
Proof.
  induction l as [|x l IH] using rev_ind.
  - unfold reduce; simpl. by rewrite (left_id_L ∅ (∪)).
  - rewrite !reduce_snoc, IH. unfold metadataReducer.
    by rewrite insert_union_l.
Qed.

Lemma state_reduce_union m l :
  reduce stateReducer m l = reduce stateReducer ∅ l ∪ m.
Proof.
  induction l as [|x l IH] using rev_ind.
  - unfold reduce; simpl. by rewrite (left_id_L ∅ (∪)).
  - rewrite !reduce_snoc, IH. unfold stateReducer.
    destruct (hasProperty "state" x); [|done]. by rewrite insert_union_l.
Qed.

Lemma reduce_app {A B} (f : B → A → B) i l1 l2 :
  reduce f i (l1 ++ l2) = reduce f (reduce f i l1) l2.
Proof. unfold reduce. by rewrite fold_left_app. Qed.

(** X9. When construction over a child list made of two parts succeeds,
    construction over each part alone succeeds too, and the whole is put
    together from the parts: the composite state and metadata are those
    of the second part laid over those of the first (the second part wins
    on a shared name), and the log is the log of the first part followed
    by the log of the second. *)
Theorem constructor_of_joined_lists l1 l2 messenger this :
  outcome (constructor (l1 ++ l2) messenger) = inr this →
  ∃ this1 this2,
    outcome (constructor l1 messenger) = inr this1 ∧
    outcome (constructor l2 messenger) = inr this2 ∧
    this_state this = this_state this2 ∪ this_state this1 ∧
    this_metadata this = this_metadata this2 ∪ this_metadata this1 ∧
    effects (constructor (l1 ++ l2) messenger)
    = effects (constructor l1 messenger) ++ effects (constructor l2 messenger).
Proof.
  intros H.
  destruct (constructor_success _ _ _ H) as (handle & -> & Hacc & -> & _).
  apply Forall_app in Hacc as [Hacc1 Hacc2].
  rewrite (constructor_accepted _ _ Hacc1), (constructor_accepted _ _ Hacc2).
  rewrite constructor_accepted by (by apply Forall_app).
  do 2 eexists. do 2 (split; [reflexivity|]). unfold effects. simpl.
  rewrite !reduce_app, flat_map_app.
  by rewrite <- state_reduce_union, <- metadata_reduce_union.
Qed.

Lemma constructor_of_joined_lists_witness :
  ∃ this this1 this2,
    outcome (constructor ([Samples.modern "A" Samples.x1 (JsObject [])]
                          ++ [Samples.legacy "A" Samples.y2 false])
               (Some Samples.messenger)) = inr this ∧
    outcome (constructor [Samples.modern "A" Samples.x1 (JsObject [])]
               (Some Samples.messenger)) = inr this1 ∧
    outcome (constructor [Samples.legacy "A" Samples.y2 false]
               (Some Samples.messenger)) = inr this2 ∧
    this_state this = this_state this2 ∪ this_state this1.
Proof.
  eexists.
  destruct (constructor_of_joined_lists
              [Samples.modern "A" Samples.x1 (JsObject [])]
              [Samples.legacy "A" Samples.y2 false]
              (Some Samples.messenger) _ eq_refl)
    as (this1 & this2 & H1 & H2 & Hst & _).
  exists this1, this2. split; [reflexivity|].
  split; [exact H1|]. split; [exact H2 | exact Hst].
Defined.

Lemma metadata_lookup_unique controllers c :
  NoDup (name <$> controllers) →
  c ∈ controllers →
  reduce metadataReducer ∅ controllers !! name c
  = Some (if isBaseController c then get c "metadata" else defaultMetadata).
Proof.
  intros Hnd (pre & post & ->)%list_elem_of_split.
  apply metadata_lookup_last.
  rewrite fmap_app, fmap_cons in Hnd.
  apply NoDup_app in Hnd as (_ & _ & Hnd).
  by apply NoDup_cons in Hnd as [Hnd _].
Qed.

Lemma state_lookup_unique controllers c :
  NoDup (name <$> controllers) →
  c ∈ controllers →
  reduce stateReducer ∅ controllers !! name c = state c.
Proof.
  intros Hnd Hc. destruct (state c) as [s|] eqn:Hs.
  - pose proof Hc as (pre & post & ->)%list_elem_of_split.
    apply state_lookup_last; [done|].
    intros c' Hc' Hn.
    assert (c' = c) as ->; [|exfalso].
    { apply (unique_name_unique_child (pre ++ c :: post)); try done.
      apply elem_of_app. right. by right. }
    rewrite fmap_app, fmap_cons in Hnd.
    apply NoDup_app in Hnd as (_ & _ & Hnd).
    apply NoDup_cons in Hnd as [Hnd _].
    apply Hnd. by apply list_elem_of_fmap_2.
  - apply state_lookup_none. intros c' Hc' Hn.
    by rewrite (unique_name_unique_child controllers c' c).
Qed.

Lemma flat_map_Permutation {A B} (f : A → list B) l l' :
  l ≡ₚ l' → flat_map f l ≡ₚ flat_map f l'.
Proof.
  induction 1 as [|x l l' _ IH|x y l|l l' l'' _ IH1 _ IH2]; simpl.
  - done.
  - by rewrite IH.
  - rewrite !app_assoc. f_equiv. apply Permutation_app_comm.
  - by etrans.
Qed.

Lemma metadata_reduce_Permutation l l' :
  l ≡ₚ l' → NoDup (name <$> l) →
  reduce metadataReducer ∅ l = reduce metadataReducer ∅ l'.
Proof.
  intros Hperm Hnd.
  assert (NoDup (name <$> l')) as Hnd' by (by rewrite <- Hperm).
  apply map_eq. intros n.
  destruct (decide (n ∈ name <$> l)) as [Hn|Hn].
  - apply list_elem_of_fmap in Hn as (c & -> & Hc).
    rewrite !metadata_lookup_unique; try done. by rewrite <- Hperm.
  - assert (n ∉ name <$> l') as Hn' by (by rewrite <- Hperm).
    transitivity (@None JsValue); [|symmetry];
      apply not_elem_of_dom; rewrite metadata_dom;
      by rewrite elem_of_list_to_set.
Qed.

Lemma state_reduce_Permutation l l' :
  l ≡ₚ l' → NoDup (name <$> l) →
  reduce stateReducer ∅ l = reduce stateReducer ∅ l'.
Proof.
  intros Hperm Hnd.
  assert (NoDup (name <$> l')) as Hnd' by (by rewrite <- Hperm).
  apply map_eq. intros n.
  destruct (decide (n ∈ name <$> l)) as [Hn|Hn].
  - apply list_elem_of_fmap in Hn as (c & -> & Hc).
    rewrite !state_lookup_unique; try done. by rewrite <- Hperm.
  - assert (n ∉ name <$> l') as Hn' by (by rewrite <- Hperm).
    rewrite !state_lookup_none; [done| |];
      intros c Hc <-; [destruct Hn' | destruct Hn];
      by apply list_elem_of_fmap_2.
Qed.

(** X10. With pairwise different names the order of the children does not
    matter for the instance: if construction succeeds on a child list, it
    succeeds on every reordering of it with the same composite state and
    metadata, and the subscriptions are the same ones, reordered. *)
Theorem constructor_of_reordered_list l l' messenger this :
  l ≡ₚ l' →
  NoDup (name <$> l) →
  outcome (constructor l messenger) = inr this →
  outcome (constructor l' messenger) = inr this ∧
  effects (constructor l messenger) ≡ₚ effects (constructor l' messenger).
Proof.
  intros Hperm Hnd H.
  destruct (constructor_success _ _ _ H) as (handle & -> & Hacc & -> & _).
  assert (Forall (λ c, accepted c = true) l') as Hacc'
    by (by rewrite <- Hperm).
  rewrite (constructor_accepted _ _ Hacc), (constructor_accepted _ _ Hacc').
  unfold effects, outcome. simpl. split.
  - by rewrite (metadata_reduce_Permutation l l'),
      (state_reduce_Permutation l l').
  - by apply flat_map_Permutation.
Qed.

Lemma constructor_of_reordered_list_witness :
  ∃ this,
    outcome (constructor [Samples.modern "A" Samples.x1 (JsObject []);
                          Samples.legacy "B" Samples.y2 false]
               (Some Samples.messenger)) = inr this ∧
    outcome (constructor [Samples.legacy "B" Samples.y2 false;
                          Samples.modern "A" Samples.x1 (JsObject [])]
               (Some Samples.messenger)) = inr this.
Proof.
  eexists. split; [reflexivity|].
  apply (constructor_of_reordered_list
           [Samples.modern "A" Samples.x1 (JsObject []);
            Samples.legacy "B" Samples.y2 false]
           [Samples.legacy "B" Samples.y2 false;
            Samples.modern "A" Samples.x1 (JsObject [])]
           (Some Samples.messenger)).
  - apply perm_swap.
  - apply (bool_decide_unpack _). reflexivity.
  - reflexivity.
Defined.

(** In the other direction: with a repeated name the order does matter. *)
Example reordering_with_shared_name :
  reduce stateReducer ∅ [Samples.modern "A" Samples.x1 (JsObject []);
                         Samples.legacy "A" Samples.y2 false] !! "A"
  = Some Samples.y2 ∧
  reduce stateReducer ∅ [Samples.legacy "A" Samples.y2 false;
                         Samples.modern "A" Samples.x1 (JsObject [])] !! "A"
  = Some Samples.x1.
Proof. split; reflexivity. Qed.

(** ** Topics *)

Lemma string_app_length (s t : string) :
  String.length (s +:+ t) = String.length s + String.length t.
Proof. induction s as [|a s IH]; simpl; [done | by rewrite IH]. Qed.

Lemma string_app_inj_r (s1 s2 t : string) : s1 +:+ t = s2 +:+ t → s1 = s2.
Proof.
  revert s2. induction s1 as [|a s1 IH]; intros [|b s2] H; simpl in H.
  - done.
  - apply (f_equal String.length) in H. simpl in H.
    rewrite !string_app_length in H. simpl in H. lia.
  - apply (f_equal String.length) in H. simpl in H.
    rewrite !string_app_length in H. simpl in H. lia.
  - injection H as -> H. by rewrite (IH _ H).
Qed.

(** X11. Two children that end up subscribed on the messenger under the
    same topic have the same name, and so the same listener: children of
    different names never share a topic. *)
Theorem same_topic_same_name c1 c2 topic listener1 listener2 :
  Messenger_subscribe topic listener1 ∈ effects (updateChildController c1) →
  Messenger_subscribe topic listener2 ∈ effects (updateChildController c2) →
  name c1 = name c2 ∧ listener1 = listener2.
Proof.
  intros [[_ H1]|(_ & _ & H1)]%updateChildController_effects
         [[_ H2]|(_ & _ & H2)]%updateChildController_effects; try done.
  injection H1 as -> ->. injection H2 as Htopic ->.
  apply string_app_inj_r in Htopic. by rewrite Htopic.
Qed.

Lemma same_topic_same_name_witness :
  name (Samples.modern "A" Samples.x1 (JsObject []))
  = name (Samples.modern "A" Samples.y2 Samples.fieldMetadata).
Proof.
  apply (same_topic_same_name
           (Samples.modern "A" Samples.x1 (JsObject []))
           (Samples.modern "A" Samples.y2 Samples.fieldMetadata)
           "A:stateChange" (SliceListener "A") (SliceListener "A")).
  - apply list_elem_of_singleton. reflexivity.
  - apply list_elem_of_singleton. reflexivity.
Defined.
